(** * The SOLID-principles notebook: its code cells, embedded and verified

    The code cells of [notebooks.ipynb] are before/after pairs of small
    class definitions ([file_manager_srp.py], [shapes_ocp.py],
    [shapes_lsp.py], [printers_isp.py], [app_dip.py]) and the REPL
    transcripts that exercise them.  The classes the transcripts and the
    properties below are about are embedded as Rocq functions over a
    small model of the Python 3.10 runtime (the version recorded in the
    notebook's metadata), one Rocq module per version of a Python file;
    the ZIP half of the file manager and the coupled first version of
    [app_dip.py] are left out. *)

From Stdlib Require Import ZArith String Ascii List Lia.
From Stdlib Require Import Floats.SpecFloat.
From stdpp Require Import base gmap strings pretty.

Local Open Scope Z_scope.
Local Open Scope string_scope.

(** ** The fragment of the Python runtime the cells rely on *)

Module Py.

(** Exceptions the cells can raise, directly or through the runtime. *)
Inductive exn : Type :=
| KeyError (key : string)
| AttributeError (name : string)
| TypeError
| OverflowError
| NotImplementedError (msg : string)
| FileNotFoundError
| IsADirectoryError
| UnicodeEncodeError
| UnicodeDecodeError.

(** The outcome of evaluating an expression: a value or a raised
    exception. *)
Inductive outcome (A : Type) : Type :=
| Ok (a : A)
| Raise (e : exn).
Arguments Ok {A} a.
Arguments Raise {A} e.

#[global] Instance outcome_ret : MRet outcome := λ A a, Ok a.
#[global] Instance outcome_bind : MBind outcome := λ A B f m,
  match m with
  | Ok a => f a
  | Raise e => Raise e
  end.
#[global] Instance outcome_fmap : FMap outcome := λ A B f m,
  match m with
  | Ok a => Ok (f a)
  | Raise e => Raise e
  end.

(** Python values: [None], unbounded [int], IEEE-754 binary64 [float]
    (the Standard Library's executable specification of floats) and
    [str]. *)
Inductive value : Type :=
| VNone
| VInt (z : Z)
| VFloat (f : spec_float)
| VStr (s : string).

(** An instance [__dict__], and a keyword-argument dictionary. *)
Abbreviation dict := (gmap string value).

(** *** Floats *)

Definition prec : Z := 53.
Definition emax : Z := 1024.

(** [float(z)] for an [int]: round to nearest even, [OverflowError]
    beyond the range of binary64. *)
Definition float_of_int (z : Z) : outcome spec_float :=
  match binary_normalize prec emax z 0 false with
  | S754_infinity _ => Raise OverflowError
  | f => Ok f
  end.

(** [math.pi], the double [0x1.921fb54442d18p+1]. *)
Definition pi : spec_float := S754_finite false 0x1921fb54442d18 (-51).

(** The double denoted by a decimal literal [digits / 10^scale], for
    [digits] and [10^scale] below [2^53] (both are then exact doubles,
    and one correctly rounded division yields the nearest double). *)
Definition float_literal (digits : Z) (scale : Z) : spec_float :=
  SFdiv prec emax
    (binary_normalize prec emax digits 0 false)
    (binary_normalize prec emax (10 ^ scale) 0 false).

(** What the interpreter delegates to the platform: [float.__pow__]
    ends in the C library's [pow], which is not required to round
    correctly, and [repr] of a float is the interpreter's shortest
    round-tripping decimal. *)
Class Runtime : Type := {
  float_pow : spec_float → spec_float → outcome spec_float;
  float_repr : spec_float → string
}.

(** One platform, to run examples on: a square is the correctly
    rounded product (what IEEE 754 recommends for [pow]), out of range
    when a finite base overflows; other powers and the digits of
    [repr] are left out. *)
Definition example_runtime : Runtime := {|
  float_pow x y :=
    if SFeqb y (S754_finite false 4503599627370496 (-51)) then
      match x, SFmul prec emax x x with
      | S754_finite _ _ _, S754_infinity _ => Raise OverflowError
      | _, square => Ok square
      end
    else Ok S754_nan;
  float_repr _ := ""
|}.

(** *** Operators *)

Fixpoint str_repeat (s : string) (n : nat) : string :=
  match n with
  | O => ""
  | S n' => s +:+ str_repeat s n'
  end.

(** [a * b] *)
Definition py_mul (a b : value) : outcome value :=
  match a, b with
  | VInt x, VInt y => Ok (VInt (x * y))
  | VInt x, VFloat y => fx ← float_of_int x; Ok (VFloat (SFmul prec emax fx y))
  | VFloat x, VInt y => fy ← float_of_int y; Ok (VFloat (SFmul prec emax x fy))
  | VFloat x, VFloat y => Ok (VFloat (SFmul prec emax x y))
  | VStr s, VInt n | VInt n, VStr s => Ok (VStr (str_repeat s (Z.to_nat n)))
  | _, _ => Raise TypeError
  end.

(** [a + b] *)
Definition py_add (a b : value) : outcome value :=
  match a, b with
  | VInt x, VInt y => Ok (VInt (x + y))
  | VInt x, VFloat y => fx ← float_of_int x; Ok (VFloat (SFadd prec emax fx y))
  | VFloat x, VInt y => fy ← float_of_int y; Ok (VFloat (SFadd prec emax x fy))
  | VFloat x, VFloat y => Ok (VFloat (SFadd prec emax x y))
  | VStr s, VStr t => Ok (VStr (s +:+ t))
  | _, _ => Raise TypeError
  end.

(** [a ** b]: exact on an [int] base with a non-negative [int]
    exponent, [float.__pow__] otherwise. *)
Definition py_pow {rt : Runtime} (a b : value) : outcome value :=
  match a, b with
  | VInt x, VInt y =>
      if (0 <=? y)%Z then Ok (VInt (x ^ y))
      else fx ← float_of_int x; fy ← float_of_int y; VFloat <$> float_pow fx fy
  | VInt x, VFloat y => fx ← float_of_int x; VFloat <$> float_pow fx y
  | VFloat x, VInt y => fy ← float_of_int y; VFloat <$> float_pow x fy
  | VFloat x, VFloat y => VFloat <$> float_pow x y
  | _, _ => Raise TypeError
  end.

(** [v == "literal"]: only a [str] equals a [str]. *)
Definition eq_str (v : value) (s : string) : bool :=
  match v with
  | VStr t => String.eqb t s
  | _ => false
  end.

(** [str(v)] *)
Definition py_str {rt : Runtime} (v : value) : string :=
  match v with
  | VNone => "None"
  | VInt z => pretty z
  | VFloat f => float_repr f
  | VStr s => s
  end.

(** [d[key]] on a dictionary. *)
Definition getitem (d : dict) (key : string) : outcome value :=
  match d !! key with
  | Some v => Ok v
  | None => Raise (KeyError key)
  end.

(** *** Statements: a state-and-exception monad

    A method body runs against a piece of mutable state [S] (the
    instance [__dict__] of [self], the standard output, the file
    system); a raised exception leaves the state as it was at the
    [raise]. *)
Definition M (S A : Type) : Type := S → outcome A * S.

#[global] Instance M_ret {S} : MRet (M S) := λ A a s, (Ok a, s).
#[global] Instance M_bind {S} : MBind (M S) := λ A B f m s,
  match m s with
  | (Ok a, s') => f a s'
  | (Raise e, s') => (Raise e, s')
  end.

Definition raise {S A} (e : exn) : M S A := λ s, (Raise e, s).

Definition lift {S A} (o : outcome A) : M S A := λ s, (o, s).

(** [self.name] *)
Definition getattr (name : string) : M dict value := λ d,
  match d !! name with
  | Some v => (Ok v, d)
  | None => (Raise (AttributeError name), d)
  end.

(** [object.__setattr__(self, name, v)], the default [self.name = v]. *)
Definition object_setattr (name : string) (v : value) : M dict unit := λ d,
  (Ok tt, <[name := v]> d).

(** [self.__dict__[key] = v], which goes around [__setattr__]. *)
Definition dict_setitem (key : string) (v : value) : M dict unit := λ d,
  (Ok tt, <[key := v]> d).

(** [cls(args)]: run [__init__] on a fresh instance. *)
Definition new (init : M dict unit) : outcome dict :=
  match init ∅ with
  | (Ok _, d) => Ok d
  | (Raise e, _) => Raise e
  end.

(** [self.method(args)], for its return value, and for the state it
    leaves [self] in. *)
Definition call {S A} (method : M S A) (self : S) : outcome A := fst (method self).
Definition after {S A} (method : M S A) (self : S) : S := snd (method self).

(** [sum(x.method() for x in xs)], from the accumulator [acc]
    ([sum] starts from the [int] 0): the generator is consumed one
    item at a time, each call followed by its addition, so the first
    failure of either kind ends the sum.  The state is the list of
    receivers (Python 3.10: a plain left fold of [+]; the compensated
    float summation came in 3.12). *)
Fixpoint sum_calls {S} (method : M S value) (acc : value) : M (list S) value :=
  λ xs,
  match xs with
  | [] => (Ok acc, [])
  | x :: rest =>
      match method x with
      | (Ok v, x') =>
          match py_add acc v with
          | Ok acc' =>
              let '(r, rest') := sum_calls method acc' rest in (r, x' :: rest')
          | Raise e => (Raise e, x' :: rest)
          end
      | (Raise e, x') => (Raise e, x' :: rest)
      end
  end.

(** A method is an observer when it leaves the state it runs against
    as it found it, and repeatable when a second call returns what
    the first one did. *)
Definition observer {S A} (method : M S A) : Prop :=
  ∀ self, after method self = self.
Definition repeatable {S A} (method : M S A) : Prop :=
  ∀ self, call method (after method self) = call method self.

Definition stateless {S A} (method : M S A) : Prop :=
  observer method ∧ repeatable method.


(** A method of an object that also acts on the world around it runs
    against the pair of the two: reading an attribute of [self], and
    running an action of the world. *)
Definition self_attr {O W A} (attr : O → A) : M (O * W) A := λ '(o, w),
  (Ok (attr o), (o, w)).
Definition in_world {O W A} (action : M W A) : M (O * W) A := λ '(o, w),
  let '(r, w') := action w in (r, (o, w')).

(** The standard output, as the text written so far. *)
Abbreviation stdout := string.

Fixpoint join_str {rt : Runtime} (args : list value) : string :=
  match args with
  | [] => ""
  | [v] => py_str v
  | v :: rest => py_str v +:+ " " +:+ join_str rest
  end.

(** The line terminator ["\n"]. *)
Definition newline : string := String (ascii_of_nat 10) "".

(** [print(arg, ...)]: the arguments' [str], separated by one space
    and ended by a newline. *)
Definition print {rt : Runtime} (args : list value) : M stdout unit := λ out,
  (Ok tt, out +:+ join_str args +:+ newline).

End Py.
Import Py.

(** ** [shapes_ocp.py], first version: one class that branches on its type *)

Module ShapesOcpMonolithic.
Module Shape.
Section WithRuntime.
Context {rt : Runtime}.

Definition __init__ (shape_type : value) (kwargs : dict) : M dict unit :=
  object_setattr "shape_type" shape_type;;
  t ← getattr "shape_type";
  if eq_str t "rectangle" then
    width ← lift (getitem kwargs "width");
    object_setattr "width" width;;
    height ← lift (getitem kwargs "height");
    object_setattr "height" height
  else
    t ← getattr "shape_type";
    if eq_str t "circle" then
      radius ← lift (getitem kwargs "radius");
      object_setattr "radius" radius
    else mret tt.

Definition calculate_area : M dict value :=
  t ← getattr "shape_type";
  if eq_str t "rectangle" then
    width ← getattr "width";
    height ← getattr "height";
    lift (py_mul width height)
  else
    t ← getattr "shape_type";
    if eq_str t "circle" then
      radius ← getattr "radius";
      squared ← lift (py_pow radius (VInt 2));
      lift (py_mul (VFloat pi) squared)
    else mret VNone.

End WithRuntime.
End Shape.

(** [Shape(shape_type, **kwargs)] *)
Definition Shape (shape_type : value) (kwargs : dict) : outcome dict :=
  new (Shape.__init__ shape_type kwargs).
End ShapesOcpMonolithic.

(** ** [shapes_ocp.py], second version: one class per shape *)

Module ShapesOcp.

(** The abstract base class: its initializer is inherited code, its
    [calculate_area] is abstract (the class cannot be instantiated). *)
Module Shape.
Definition __init__ (shape_type : value) : M dict unit :=
  object_setattr "shape_type" shape_type.
End Shape.

Module Circle.
Section WithRuntime.
Context {rt : Runtime}.

Definition __init__ (radius : value) : M dict unit :=
  Shape.__init__ (VStr "circle");;
  object_setattr "radius" radius.

Definition calculate_area : M dict value :=
  radius ← getattr "radius";
  squared ← lift (py_pow radius (VInt 2));
  lift (py_mul (VFloat pi) squared).

End WithRuntime.
End Circle.

Module Rectangle.
Definition __init__ (width height : value) : M dict unit :=
  Shape.__init__ (VStr "rectangle");;
  object_setattr "width" width;;
  object_setattr "height" height.

Definition calculate_area : M dict value :=
  width ← getattr "width";
  height ← getattr "height";
  lift (py_mul width height).
End Rectangle.

Module Square.
Section WithRuntime.
Context {rt : Runtime}.

Definition __init__ (side : value) : M dict unit :=
  Shape.__init__ (VStr "square");;
  object_setattr "side" side.

Definition calculate_area : M dict value :=
  side ← getattr "side";
  lift (py_pow side (VInt 2)).

End WithRuntime.
End Square.

Definition Circle (radius : value) : outcome dict := new (Circle.__init__ radius).
Definition Rectangle (width height : value) : outcome dict :=
  new (Rectangle.__init__ width height).
Definition Square (side : value) : outcome dict := new (Square.__init__ side).
End ShapesOcp.

(** ** [shapes_lsp.py], first version: [Square] derived from [Rectangle] *)

Module ShapesLspSubclass.

(** [self.name = v] is dispatched on the class of [self]: the code of
    [Rectangle] takes the [__setattr__] of the instance it runs on. *)
Module Rectangle.
Definition __init__ (setattr : string → value → M dict unit)
    (width height : value) : M dict unit :=
  setattr "width" width;;
  setattr "height" height.

Definition calculate_area : M dict value :=
  width ← getattr "width";
  height ← getattr "height";
  lift (py_mul width height).
End Rectangle.

Module Square.
Definition __setattr__ (key : string) (value : value) : M dict unit :=
  object_setattr key value;;
  if String.eqb key "width" || String.eqb key "height" then
    dict_setitem "width" value;;
    dict_setitem "height" value
  else mret tt.

Definition __init__ (side : value) : M dict unit :=
  Rectangle.__init__ __setattr__ side side.

(** inherited *)
Definition calculate_area : M dict value := Rectangle.calculate_area.
End Square.

Definition Rectangle (width height : value) : outcome dict :=
  new (Rectangle.__init__ object_setattr width height).
Definition Square (side : value) : outcome dict := new (Square.__init__ side).
End ShapesLspSubclass.

(** ** [shapes_lsp.py], second version: [Rectangle] and [Square] as siblings *)

Module ShapesLsp.

Module Rectangle.
Definition __init__ (width height : value) : M dict unit :=
  object_setattr "width" width;;
  object_setattr "height" height.

Definition calculate_area : M dict value :=
  width ← getattr "width";
  height ← getattr "height";
  lift (py_mul width height).
End Rectangle.

Module Square.
Section WithRuntime.
Context {rt : Runtime}.

Definition __init__ (side : value) : M dict unit :=
  object_setattr "side" side.

Definition calculate_area : M dict value :=
  side ← getattr "side";
  lift (py_pow side (VInt 2)).

End WithRuntime.
End Square.

(** An instance of one of the concrete subclasses of [Shape]: its
    class and its [__dict__]. *)
Inductive class : Type := cRectangle | cSquare.
Record object : Type := Object { class_of : class; vars : dict }.

Definition instance (cls : class) (o : outcome dict) : outcome object :=
  Object cls <$> o.

Definition Rectangle (width height : value) : outcome object :=
  instance cRectangle (new (Rectangle.__init__ width height)).
Definition Square {rt : Runtime} (side : value) : outcome object :=
  instance cSquare (new (Square.__init__ side)).

Section WithRuntime.
Context {rt : Runtime}.

(** [shape.calculate_area()], resolved on the class of [shape]. *)
Definition calculate_area : M object value := λ shape,
  let method :=
    match class_of shape with
    | cRectangle => Rectangle.calculate_area
    | cSquare => Square.calculate_area
    end in
  let '(r, d) := method (vars shape) in
  (r, Object (class_of shape) d).

Definition get_total_area : M (list object) value :=
  sum_calls calculate_area (VInt 0).

End WithRuntime.
End ShapesLsp.

(** ** [printers_isp.py], first version: one wide [Printer] interface *)

Module PrintersIspWide.

(** The abstract base class, as the interface its subclasses
    implement.  Printers carry no attributes; the state a method runs
    against is the standard output. *)
Class Printer (T : Type) : Type := {
  print : T → value → M stdout unit;
  fax : T → value → M stdout unit;
  scan : T → value → M stdout unit
}.

Inductive OldPrinter : Type := mkOldPrinter.
Inductive ModernPrinter : Type := mkModernPrinter.

Section WithRuntime.
Context {rt : Runtime}.

#[global] Instance OldPrinter_Printer : Printer OldPrinter := {|
  print _ document :=
    Py.print [VStr ("Printing " +:+ py_str document +:+ " in black and white...")];
  fax _ document := raise (NotImplementedError "Fax functionality not supported");
  scan _ document := raise (NotImplementedError "Scan functionality not supported")
|}.

#[global] Instance ModernPrinter_Printer : Printer ModernPrinter := {|
  print _ document :=
    Py.print [VStr ("Printing " +:+ py_str document +:+ " in color...")];
  fax _ document := Py.print [VStr ("Faxing " +:+ py_str document +:+ "...")];
  scan _ document := Py.print [VStr ("Scanning " +:+ py_str document +:+ "...")]
|}.

End WithRuntime.
End PrintersIspWide.

(** ** [printers_isp.py], second version: segregated interfaces *)

Module PrintersIsp.

Class Printer (T : Type) : Type := { print : T → value → M stdout unit }.
Class Fax (T : Type) : Type := { fax : T → value → M stdout unit }.
Class Scanner (T : Type) : Type := { scan : T → value → M stdout unit }.

Inductive OldPrinter : Type := mkOldPrinter.
Inductive NewPrinter : Type := mkNewPrinter.

Section WithRuntime.
Context {rt : Runtime}.

#[global] Instance OldPrinter_Printer : Printer OldPrinter := {|
  print _ document :=
    Py.print [VStr ("Printing " +:+ py_str document +:+ " in black and white...")]
|}.

#[global] Instance NewPrinter_Printer : Printer NewPrinter := {|
  print _ document :=
    Py.print [VStr ("Printing " +:+ py_str document +:+ " in color...")]
|}.

#[global] Instance NewPrinter_Fax : Fax NewPrinter := {|
  fax _ document := Py.print [VStr ("Faxing " +:+ py_str document +:+ "...")]
|}.

#[global] Instance NewPrinter_Scanner : Scanner NewPrinter := {|
  scan _ document := Py.print [VStr ("Scanning " +:+ py_str document +:+ "...")]
|}.

End WithRuntime.
End PrintersIsp.

(** ** [app_dip.py], second version: [FrontEnd] over a [DataSource] *)

Module AppDip.

(** The abstraction [FrontEnd] depends on. *)
Class DataSource (T : Type) : Type := { get_data : T → outcome value }.

Inductive Database : Type := mkDatabase.
Inductive API : Type := mkAPI.

#[global] Instance Database_DataSource : DataSource Database := {|
  get_data _ := Ok (VStr "Data from the database")
|}.

#[global] Instance API_DataSource : DataSource API := {|
  get_data _ := Ok (VStr "Data from the API")
|}.

Record FrontEnd (T : Type) : Type := mkFrontEnd { data_source : T }.
Arguments mkFrontEnd {T} data_source.
Arguments data_source {T} _.

Section WithRuntime.
Context {rt : Runtime}.

Definition display_data {T} `{DataSource T} (self : FrontEnd T) : M stdout unit :=
  data ← lift (get_data (data_source self));
  Py.print [VStr "Display data:"; data].

End WithRuntime.
End AppDip.

(** ** [file_manager_srp.py], second version: [FileManager] on its own *)

Module FileManagerSrp.
Local Open Scope Z_scope.

(** Where the encoding matters a [str] is the sequence of its code
    points, and the content of a file a sequence of bytes (0..255). *)
Abbreviation text := (list Z).
Abbreviation bytes := (list Z).

(** *** Codecs *)

Inductive encoding : Type := UTF8 | ASCII | LATIN1.

Definition utf8_encode_char (c : Z) : outcome bytes :=
  if c <? 0 then Raise UnicodeEncodeError
  else if c <? 0x80 then Ok [c]
  else if c <? 0x800 then Ok [0xC0 + c / 64; 0x80 + c mod 64]
  else if (0xD800 <=? c) && (c <? 0xE000) then Raise UnicodeEncodeError
  else if c <? 0x10000 then
    Ok [0xE0 + c / 4096; 0x80 + (c / 64) mod 64; 0x80 + c mod 64]
  else if c <? 0x110000 then
    Ok [0xF0 + c / 262144; 0x80 + (c / 4096) mod 64;
        0x80 + (c / 64) mod 64; 0x80 + c mod 64]
  else Raise UnicodeEncodeError.

Definition narrow_encode_char (limit : Z) (c : Z) : outcome bytes :=
  if (0 <=? c) && (c <? limit) then Ok [c] else Raise UnicodeEncodeError.

Definition encode_char (enc : encoding) : Z → outcome bytes :=
  match enc with
  | UTF8 => utf8_encode_char
  | ASCII => narrow_encode_char 0x80
  | LATIN1 => narrow_encode_char 0x100
  end.

Fixpoint encode (enc : encoding) (t : text) : outcome bytes :=
  match t with
  | [] => Ok []
  | c :: rest => bs ← encode_char enc c; (bs ++.) <$> encode enc rest
  end.

Definition continuation (b : Z) : bool := (0x80 <=? b) && (b <? 0xC0).

(** The strict decoder: no overlong forms, no surrogates, nothing
    beyond U+10FFFF. *)
Fixpoint utf8_decode (bs : bytes) : outcome text :=
  match bs with
  | [] => Ok []
  | b0 :: rest =>
      if (0 <=? b0) && (b0 <? 0x80) then (b0 ::.) <$> utf8_decode rest
      else if (0xC2 <=? b0) && (b0 <? 0xE0) then
        match rest with
        | b1 :: rest1 =>
            if continuation b1
            then (((b0 - 0xC0) * 64 + (b1 - 0x80)) ::.) <$> utf8_decode rest1
            else Raise UnicodeDecodeError
        | _ => Raise UnicodeDecodeError
        end
      else if (0xE0 <=? b0) && (b0 <? 0xF0) then
        match rest with
        | b1 :: b2 :: rest2 =>
            let c := (b0 - 0xE0) * 4096 + (b1 - 0x80) * 64 + (b2 - 0x80) in
            if continuation b1 && continuation b2 && (0x800 <=? c)
               && negb ((0xD800 <=? c) && (c <? 0xE000))
            then (c ::.) <$> utf8_decode rest2
            else Raise UnicodeDecodeError
        | _ => Raise UnicodeDecodeError
        end
      else if (0xF0 <=? b0) && (b0 <? 0xF5) then
        match rest with
        | b1 :: b2 :: b3 :: rest3 =>
            let c := (b0 - 0xF0) * 262144 + (b1 - 0x80) * 4096
                     + (b2 - 0x80) * 64 + (b3 - 0x80) in
            if continuation b1 && continuation b2 && continuation b3
               && (0x10000 <=? c) && (c <? 0x110000)
            then (c ::.) <$> utf8_decode rest3
            else Raise UnicodeDecodeError
        | _ => Raise UnicodeDecodeError
        end
      else Raise UnicodeDecodeError
  end.

Fixpoint narrow_decode (limit : Z) (bs : bytes) : outcome text :=
  match bs with
  | [] => Ok []
  | b :: rest =>
      if (0 <=? b) && (b <? limit) then (b ::.) <$> narrow_decode limit rest
      else Raise UnicodeDecodeError
  end.

Definition decode (enc : encoding) : bytes → outcome text :=
  match enc with
  | UTF8 => utf8_decode
  | ASCII => narrow_decode 0x80
  | LATIN1 => narrow_decode 0x100
  end.

(** *** Text-mode newline handling ([newline=None]) *)

Definition LF : Z := 10.
Definition CR : Z := 13.

Inductive platform : Type := Posix | Windows.

(** [os.linesep] *)
Definition linesep (os : platform) : text :=
  match os with
  | Posix => [LF]
  | Windows => [CR; LF]
  end.

(** On output every ["\n"] becomes [os.linesep]. *)
Definition translate_output (os : platform) (t : text) : text :=
  flat_map (λ c, if c =? LF then linesep os else [c]) t.

(** On input, universal newlines: ["\r\n"] and a lone ["\r"] both
    become ["\n"]. *)
Fixpoint universal_newlines (t : text) : text :=
  match t with
  | [] => []
  | c :: rest =>
      if c =? CR then
        LF :: match rest with
              | c' :: rest' =>
                  if c' =? LF then universal_newlines rest'
                  else universal_newlines rest
              | [] => []
              end
      else c :: universal_newlines rest
  end.

(** *** Files *)

Inductive node : Type :=
| File (content : bytes)
| Directory.

(** The file system: what each path names, if anything. *)
Abbreviation filesystem := (gmap string node).

(** [pathlib.Path(filename)] *)
Record Path : Type := mkPath { name : string }.

Section OnPlatform.
Variable os : platform.

(** [open(mode="w")] creates or truncates the file; the encoder runs
    when the text is written. *)
Definition write_text (p : Path) (data : text) (enc : encoding)
    : M filesystem Z := λ fs,
  match fs !! name p with
  | Some Directory => (Raise IsADirectoryError, fs)
  | _ =>
      match encode enc (translate_output os data) with
      | Ok bs => (Ok (Z.of_nat (length data)), <[name p := File bs]> fs)
      | Raise e => (Raise e, <[name p := File []]> fs)
      end
  end.

Definition read_text (p : Path) (enc : encoding) : M filesystem text := λ fs,
  match fs !! name p with
  | Some (File bs) => (universal_newlines <$> decode enc bs, fs)
  | Some Directory => (Raise IsADirectoryError, fs)
  | None => (Raise FileNotFoundError, fs)
  end.

(** *** The class *)

Record FileManager : Type := mkFileManager { path : Path }.

Definition __init__ (filename : string) : FileManager :=
  {| path := mkPath filename |}.

(** The default of the [encoding] parameter is ["utf-8"]. *)
Definition read (encoding : option encoding)
    : M (FileManager * filesystem) text :=
  p ← self_attr path;
  in_world (read_text p (default UTF8 encoding)).

Definition write (data : text) (encoding : option encoding)
    : M (FileManager * filesystem) unit :=
  p ← self_attr path;
  in_world (write_text p data (default UTF8 encoding));;
  mret tt.

End OnPlatform.
End FileManagerSrp.

(** ** [app_dip.py], first version: [FrontEnd] tied to [BackEnd] *)

Module AppDipCoupled.

Inductive BackEnd : Type := mkBackEnd.

Module BackEnd.
Definition get_data_from_database (self : BackEnd) : outcome value :=
  Ok (VStr "Data from the database").
End BackEnd.

Record FrontEnd : Type := mkFrontEnd { back_end : BackEnd }.

Section WithRuntime.
Context {rt : Runtime}.

Definition display_data (self : FrontEnd) : M stdout unit :=
  data ← lift (BackEnd.get_data_from_database (back_end self));
  Py.print [VStr "Display data:"; data].

End WithRuntime.
End AppDipCoupled.

(** ** Client code: statements run one after the other on one object *)

Module Clients.

(** [self.k1 = v1; self.k2 = v2; ...], each assignment through the
    [__setattr__] of the class of [self]. *)
Fixpoint assignments (setattr : string → value → M dict unit)
    (items : list (string * value)) : M dict unit :=
  match items with
  | [] => mret tt
  | (key, v) :: rest => setattr key v;; assignments setattr rest
  end.

End Clients.

(** * Properties *)

(** ** Observers

    What the methods below are built from either reads the state or
    computes on values; sequencing and branching keep that. *)

Module PyFacts.
Section Observers.
Context {S : Type}.

Lemma observer_ret {A} (a : A) : observer (mret a : M S A).
Proof. by intros s. Qed.

Lemma observer_lift {A} (o : outcome A) : observer (lift o : M S A).
Proof. by intros s. Qed.

Lemma observer_bind {A B} (m : M S A) (f : A → M S B) :
  observer m → (∀ a, observer (f a)) → observer (m ≫= f).
Proof.
  intros Hm Hf s. specialize (Hm s). unfold after, mbind, M_bind in *.
  destruct (m s) as [[a|e] s']; simpl in *; subst; [apply Hf | done].
Qed.

Lemma observer_if {A} (c : bool) (m1 m2 : M S A) :
  observer m1 → observer m2 → observer (if c then m1 else m2).
Proof. by destruct c. Qed.

Lemma observer_repeatable {A} (m : M S A) : observer m → repeatable m.
Proof. intros Hm s. by rewrite Hm. Qed.
End Observers.

Lemma observer_getattr (name : string) : observer (getattr name).
Proof. intros d. unfold after, getattr. by destruct (d !! name). Qed.

(** Attribute reads against a [__dict__] built by named insertions. *)
Ltac lookups :=
  repeat first
    [ rewrite lookup_insert_eq
    | rewrite lookup_insert_ne by done
    | rewrite lookup_singleton_eq
    | progress cbv beta iota ].

Create HintDb observer.
#[export] Hint Resolve observer_ret observer_lift observer_if
  observer_getattr : observer.
#[export] Hint Extern 2 (observer (_ ≫= _)) =>
  apply observer_bind; [|intros ?] : observer.
End PyFacts.
Import PyFacts.

(** ** The monolithic [Shape] *)

Module ShapesOcpMonolithicFacts.
Import ShapesOcpMonolithic.

Section WithRuntime.
Context {rt : Runtime}.

(** C1. The transcript of the first [shapes_ocp.py]: the rectangle
    of width 10 and height 5 has area 50, and the circle of radius 5
    has area [pi * 5**2], the double that the printed literal
    78.53981633974483 denotes. *)
Theorem Shape_transcript :
  (rectangle ← Shape (VStr "rectangle") {[ "width" := VInt 10; "height" := VInt 5 ]};
   call Shape.calculate_area rectangle) = Ok (VInt 50)
  ∧ (circle ← Shape (VStr "circle") {[ "radius" := VInt 5 ]};
     call Shape.calculate_area circle)
    = Ok (VFloat (float_literal 7853981633974483 14))
  ∧ (squared ← py_pow (VInt 5) (VInt 2); py_mul (VFloat pi) squared)
    = Ok (VFloat (float_literal 7853981633974483 14)).
Proof. repeat split; vm_compute; reflexivity. Qed.

(** C9. A [Shape] whose type is neither "rectangle" nor "circle"
    gets no dimension attribute, only its [shape_type], and its
    [calculate_area] returns [None]. *)
Theorem Shape_unknown_type (shape_type : value) (kwargs : dict) :
  shape_type ≠ VStr "rectangle" →
  shape_type ≠ VStr "circle" →
  Shape shape_type kwargs = Ok {[ "shape_type" := shape_type ]}
  ∧ (shape ← Shape shape_type kwargs; call Shape.calculate_area shape) = Ok VNone.
Proof.
  intros Hrectangle Hcircle.
  assert (eq_str shape_type "rectangle" = false) as Er.
  { destruct shape_type as [| | |s]; try reflexivity; simpl.
    apply String.eqb_neq. congruence. }
  assert (eq_str shape_type "circle" = false) as Ec.
  { destruct shape_type as [| | |s]; try reflexivity; simpl.
    apply String.eqb_neq. congruence. }
  assert (Shape shape_type kwargs = Ok {[ "shape_type" := shape_type ]}) as ->.
  { unfold Shape, new, Shape.__init__, mbind, M_bind, object_setattr, getattr.
    rewrite lookup_insert_eq, Er, lookup_insert_eq, Ec. simpl.
    by rewrite insert_empty. }
  split; [done|].
  unfold call, Shape.calculate_area, mbind, outcome_bind, M_bind, getattr.
  by rewrite lookup_singleton_eq, Er, lookup_singleton_eq, Ec.
Qed.

End WithRuntime.

#[local] Existing Instance example_runtime.

Lemma Shape_unknown_type_witness :
  VStr "square" ≠ VStr "rectangle"
  ∧ VStr "square" ≠ VStr "circle"
  ∧ Shape (VStr "square") {[ "side" := VInt 5 ]}
    = Ok {[ "shape_type" := VStr "square" ]}
  ∧ (shape ← Shape (VStr "square") {[ "side" := VInt 5 ]};
     call Shape.calculate_area shape) = Ok VNone.
Proof.
  split; [discriminate|]. split; [discriminate|].
  apply (Shape_unknown_type (VStr "square") {[ "side" := VInt 5 ]});
    discriminate.
Defined.

End ShapesOcpMonolithicFacts.

(** ** The shape classes, before and after *)

Module ShapesFacts.

Section WithRuntime.
Context {rt : Runtime}.

(** The objects the constructors build. *)
Lemma monolithic_rectangle_new (w h : value) :
  ShapesOcpMonolithic.Shape (VStr "rectangle") {[ "width" := w; "height" := h ]}
  = Ok (<["height" := h]> (<["width" := w]>
          (<["shape_type" := VStr "rectangle"]> ∅))).
Proof.
  unfold ShapesOcpMonolithic.Shape, new, ShapesOcpMonolithic.Shape.__init__,
    mbind, M_bind, object_setattr, getattr, lift, getitem.
  rewrite lookup_insert_eq.
  change (eq_str (VStr "rectangle") "rectangle") with true. cbv iota.
  rewrite lookup_insert_eq, lookup_insert_ne by done.
  by rewrite lookup_singleton_eq.
Qed.

Lemma monolithic_circle_new (r : value) :
  ShapesOcpMonolithic.Shape (VStr "circle") {[ "radius" := r ]}
  = Ok (<["radius" := r]> (<["shape_type" := VStr "circle"]> ∅)).
Proof.
  unfold ShapesOcpMonolithic.Shape, new, ShapesOcpMonolithic.Shape.__init__,
    mbind, M_bind, object_setattr, getattr, lift, getitem.
  rewrite lookup_insert_eq.
  change (eq_str (VStr "circle") "rectangle") with false. cbv beta iota.
  rewrite lookup_insert_eq.
  change (eq_str (VStr "circle") "circle") with true. cbv beta iota.
  by rewrite lookup_singleton_eq.
Qed.

Lemma Rectangle_new (w h : value) :
  ShapesOcp.Rectangle w h
  = Ok (<["height" := h]> (<["width" := w]>
          (<["shape_type" := VStr "rectangle"]> ∅))).
Proof. reflexivity. Qed.

Lemma Circle_new (r : value) :
  ShapesOcp.Circle r
  = Ok (<["radius" := r]> (<["shape_type" := VStr "circle"]> ∅)).
Proof. reflexivity. Qed.

(** C3. The two versions of [shapes_ocp.py] compute the same areas:
    for every width and height the refactored [Rectangle] returns
    what the monolithic [Shape] of type "rectangle" returns, and for
    every radius the refactored [Circle] returns what the
    monolithic [Shape] of type "circle" returns (the same value, or
    the same exception). *)
Theorem refactored_areas_agree (w h r : value) :
  (rectangle ← ShapesOcp.Rectangle w h;
   call ShapesOcp.Rectangle.calculate_area rectangle)
  = (shape ← ShapesOcpMonolithic.Shape (VStr "rectangle")
               {[ "width" := w; "height" := h ]};
     call ShapesOcpMonolithic.Shape.calculate_area shape)
  ∧ (circle ← ShapesOcp.Circle r;
     call ShapesOcp.Circle.calculate_area circle)
    = (shape ← ShapesOcpMonolithic.Shape (VStr "circle") {[ "radius" := r ]};
       call ShapesOcpMonolithic.Shape.calculate_area shape).
Proof.
  split.
  - rewrite Rectangle_new, monolithic_rectangle_new.
    unfold mbind, outcome_bind, call, ShapesOcp.Rectangle.calculate_area,
      ShapesOcpMonolithic.Shape.calculate_area, mbind, M_bind, getattr.
    lookups.
    change (eq_str (VStr "rectangle") "rectangle") with true. cbv beta iota.
    by lookups.
  - rewrite Circle_new, monolithic_circle_new.
    unfold mbind, outcome_bind, call, ShapesOcp.Circle.calculate_area,
      ShapesOcpMonolithic.Shape.calculate_area, mbind, M_bind, getattr.
    lookups.
    change (eq_str (VStr "circle") "rectangle") with false. cbv beta iota.
    lookups.
    change (eq_str (VStr "circle") "circle") with true. cbv beta iota.
    by lookups.
Qed.

Lemma observer_dispatch : observer ShapesLsp.calculate_area.
Proof.
  intros [cls d]. unfold after, ShapesLsp.calculate_area. simpl.
  assert (observer ShapesLsp.Rectangle.calculate_area) as Hr
    by (unfold ShapesLsp.Rectangle.calculate_area; auto 10 with observer).
  assert (observer ShapesLsp.Square.calculate_area) as Hs
    by (unfold ShapesLsp.Square.calculate_area; auto 10 with observer).
  specialize (Hr d). specialize (Hs d). unfold after in *.
  destruct cls; [destruct (ShapesLsp.Rectangle.calculate_area d)
                |destruct (ShapesLsp.Square.calculate_area d)];
    simpl in *; congruence.
Qed.

(** C6. No [calculate_area] keeps state: on every object of the
    monolithic [Shape], of the refactored [Circle], [Rectangle] and
    [Square] of [shapes_ocp.py], and of the [Rectangle] and [Square]
    of both versions of [shapes_lsp.py], a call leaves every
    attribute as it was, and a second call returns what the first
    one returned. *)
Theorem calculate_area_stateless :
  stateless ShapesOcpMonolithic.Shape.calculate_area
  ∧ stateless ShapesOcp.Circle.calculate_area
  ∧ stateless ShapesOcp.Rectangle.calculate_area
  ∧ stateless ShapesOcp.Square.calculate_area
  ∧ stateless ShapesLspSubclass.Rectangle.calculate_area
  ∧ stateless ShapesLspSubclass.Square.calculate_area
  ∧ stateless ShapesLsp.Rectangle.calculate_area
  ∧ stateless ShapesLsp.Square.calculate_area
  ∧ stateless ShapesLsp.calculate_area.
Proof.
  assert (∀ S A (m : M S A), observer m → stateless m) as Hstateless
    by (split; auto using observer_repeatable).
  repeat split; try apply observer_repeatable;
    try apply observer_dispatch;
    unfold ShapesOcpMonolithic.Shape.calculate_area,
      ShapesOcp.Circle.calculate_area, ShapesOcp.Rectangle.calculate_area,
      ShapesOcp.Square.calculate_area,
      ShapesLspSubclass.Square.calculate_area,
      ShapesLspSubclass.Rectangle.calculate_area,
      ShapesLsp.Rectangle.calculate_area, ShapesLsp.Square.calculate_area;
    auto 12 with observer.
Qed.

(** C2. The transcript of the second [shapes_lsp.py]: the total
    area of [[Rectangle(10, 5), Square(5)]] is 75. *)
Theorem get_total_area_transcript :
  (rectangle ← ShapesLsp.Rectangle (VInt 10) (VInt 5);
   square ← ShapesLsp.Square (VInt 5);
   call ShapesLsp.get_total_area [rectangle; square]) = Ok (VInt 75).
Proof. vm_compute. reflexivity. Qed.

End WithRuntime.

Import ShapesLspSubclass.

Lemma Square_setattr_sides (key : string) (v : value) (self : dict) :
  key = "width" ∨ key = "height" →
  Square.__setattr__ key v self
  = (Ok tt, <["height" := v]> (<["width" := v]> self)).
Proof.
  intros [-> | ->]; unfold Square.__setattr__, mbind, M_bind,
    object_setattr, dict_setitem; simpl; f_equal.
  - by rewrite insert_insert_eq.
  - rewrite (insert_insert_ne self "width" "height") by done.
    by rewrite insert_insert_eq.
Qed.

(** C8. A [Square] derived from [Rectangle] keeps its sides equal: it
    is constructed with both [width] and [height] equal to its side,
    and an assignment to either attribute completes and sets both to
    the assigned value, leaving every other attribute alone (so
    [Square(5)] has width 5 and height 5, then 7 and 7 after
    [square.width = 7], then 9 and 9 after [square.height = 9]). *)
Theorem Square_sides_stay_equal (side v : value) (self : dict) :
  Square side = Ok {[ "width" := side; "height" := side ]}
  ∧ call (Square.__setattr__ "width" v) self = Ok tt
  ∧ call (Square.__setattr__ "height" v) self = Ok tt
  ∧ after (Square.__setattr__ "width" v) self
    = <["height" := v]> (<["width" := v]> self)
  ∧ after (Square.__setattr__ "height" v) self
    = <["height" := v]> (<["width" := v]> self)
  ∧ (<["height" := v]> (<["width" := v]> self) : dict) !! "width" = Some v
  ∧ (<["height" := v]> (<["width" := v]> self) : dict) !! "height" = Some v
  ∧ (square ← Square (VInt 5);
     Ok (after (Square.__setattr__ "width" (VInt 7)) square))
    = Ok {[ "width" := VInt 7; "height" := VInt 7 ]}
  ∧ (square ← Square (VInt 5);
     Ok (after (Square.__setattr__ "height" (VInt 9))
           (after (Square.__setattr__ "width" (VInt 7)) square)))
    = Ok {[ "width" := VInt 9; "height" := VInt 9 ]}.
Proof.
  assert (Square side = Ok {[ "width" := side; "height" := side ]}) as Hnew.
  { vm_compute. reflexivity. }
  unfold call, after. rewrite !Square_setattr_sides by auto.
  repeat split; try done; try (vm_compute; reflexivity).
  - rewrite lookup_insert_ne by done. apply lookup_insert_eq.
  - apply lookup_insert_eq.
Qed.

End ShapesFacts.

(** ** The printers *)

Module PrintersFacts.
Section WithRuntime.
Context {rt : Runtime}.



End WithRuntime.
End PrintersFacts.

(** ** The front end *)

Module AppDipFacts.
Import AppDip.

Section WithRuntime.
Context {rt : Runtime}.

(** C5. The transcript of [app_dip.py]: [display_data] of a
    [FrontEnd] over [Database] prints exactly the line "Display
    data: Data from the database", and over [API] exactly the line
    "Display data: Data from the API". *)
Theorem display_data_transcript (out : stdout) :
  display_data (mkFrontEnd mkDatabase) out
  = (Ok tt, out +:+ "Display data: Data from the database" +:+ newline)
  ∧ display_data (mkFrontEnd mkAPI) out
    = (Ok tt, out +:+ "Display data: Data from the API" +:+ newline).
Proof. split; reflexivity. Qed.

End WithRuntime.
End AppDipFacts.

(** ** The file manager *)

Module FileManagerSrpFacts.
Import FileManagerSrp.
Local Open Scope Z_scope.

(** *** Codecs: decoding undoes encoding *)







(** *** Newlines: what is written without a carriage return is read
    back as written *)


(** *** Writing, then reading *)





End FileManagerSrpFacts.

(** * Further properties *)

(** ** More on the shapes *)

Module ShapesMore.

Lemma SFmul_comm (x y : spec_float) : SFmul prec emax x y = SFmul prec emax y x.
Proof.
  destruct x as [sx|sx| |sx mx ex], y as [sy|sy| |sy my ey]; cbn [SFmul];
    try reflexivity; try (by rewrite xorb_comm).
  by rewrite xorb_comm, Pos.mul_comm, Z.add_comm.
Qed.

Lemma py_mul_comm (a b : value) : py_mul a b = py_mul b a.
Proof.
  destruct a as [|x|x|s], b as [|y|y|t]; cbn [py_mul]; try reflexivity.
  - by rewrite Z.mul_comm.
  - destruct (float_of_int x); cbn; [|done]. by rewrite SFmul_comm.
  - destruct (float_of_int y); cbn; [|done]. by rewrite SFmul_comm.
  - by rewrite SFmul_comm.
Qed.



Lemma bind_raise {S A B} (m : M S A) (f : A → M S B) (s s' : S) (e : exn) :
  m s = (Raise e, s') → (m ≫= f) s = (Raise e, s').
Proof. intros Hm. unfold mbind, M_bind. by rewrite Hm. Qed.

(** Running a constructor or a method on a [__dict__] with known keys. *)
Ltac settle_eq_str :=
  repeat match goal with
  | |- context [eq_str (VStr ?a) ?b] =>
      let r := eval vm_compute in (String.eqb a b) in
      change (eq_str (VStr a) b) with r
  end.

Ltac run :=
  unfold call, after, new, mbind, M_bind, outcome_bind,
    mret, M_ret, object_setattr, dict_setitem, getattr, lift, getitem;
  repeat (lookups; settle_eq_str).

(** *** The monolithic [Shape] *)





Section WithRuntime.
Context {rt : Runtime}.

(** X3. The type of a monolithic [Shape] is ordinary mutable state:
    once a rectangle is retagged "circle" its [calculate_area] raises
    [AttributeError] for the radius it never got, a circle retagged
    "rectangle" raises it for the width, and a shape retagged with an
    unknown type returns [None]. *)
Theorem Shape_retagged (w h r : value) :
  (shape ← ShapesOcpMonolithic.Shape (VStr "rectangle")
             {[ "width" := w; "height" := h ]};
   call (object_setattr "shape_type" (VStr "circle");;
         ShapesOcpMonolithic.Shape.calculate_area) shape)
  = Raise (AttributeError "radius")
  ∧ (shape ← ShapesOcpMonolithic.Shape (VStr "circle") {[ "radius" := r ]};
     call (object_setattr "shape_type" (VStr "rectangle");;
           ShapesOcpMonolithic.Shape.calculate_area) shape)
    = Raise (AttributeError "width")
  ∧ (shape ← ShapesOcpMonolithic.Shape (VStr "circle") {[ "radius" := r ]};
     call (object_setattr "shape_type" (VStr "triangle");;
           ShapesOcpMonolithic.Shape.calculate_area) shape)
    = Ok VNone.
Proof.
  rewrite ShapesFacts.monolithic_rectangle_new, ShapesFacts.monolithic_circle_new.
  unfold ShapesOcpMonolithic.Shape.calculate_area.
  repeat split; run; by rewrite ?lookup_empty.
Qed.


(** What each constructor followed by [calculate_area] evaluates to. *)
Lemma ocp_Rectangle_area (w h : value) :
  (shape ← ShapesOcp.Rectangle w h;
   call ShapesOcp.Rectangle.calculate_area shape) = py_mul w h.
Proof.
  rewrite ShapesFacts.Rectangle_new.
  unfold ShapesOcp.Rectangle.calculate_area. run. by destruct (py_mul w h).
Qed.

Lemma lsp_Rectangle_area (w h : value) :
  (shape ← ShapesLsp.Rectangle w h; call ShapesLsp.calculate_area shape)
  = py_mul w h.
Proof.
  unfold ShapesLsp.Rectangle, ShapesLsp.instance, ShapesLsp.Rectangle.__init__,
    ShapesLsp.calculate_area, ShapesLsp.Rectangle.calculate_area.
  run. cbn [fmap outcome_fmap ShapesLsp.class_of ShapesLsp.vars]. run.
  by destruct (py_mul w h).
Qed.

Lemma ocp_Circle_area (r : value) :
  (shape ← ShapesOcp.Circle r; call ShapesOcp.Circle.calculate_area shape)
  = (squared ← py_pow r (VInt 2); py_mul (VFloat pi) squared).
Proof.
  rewrite ShapesFacts.Circle_new.
  unfold ShapesOcp.Circle.calculate_area. run.
  destruct (py_pow r (VInt 2)) as [squared|]; [|done].
  lookups. by destruct (py_mul (VFloat pi) squared).
Qed.

(** X4. The area of a rectangle does not depend on which side is
    called the width: for all values, ints, floats and the rest,
    [Rectangle(w, h)] and [Rectangle(h, w)] return the same area or
    raise the same exception, in [shapes_ocp.py] and in
    [shapes_lsp.py]. *)
Theorem Rectangle_area_symmetric (w h : value) :
  (shape ← ShapesOcp.Rectangle w h;
   call ShapesOcp.Rectangle.calculate_area shape)
  = (shape ← ShapesOcp.Rectangle h w;
     call ShapesOcp.Rectangle.calculate_area shape)
  ∧ (shape ← ShapesLsp.Rectangle w h; call ShapesLsp.calculate_area shape)
    = (shape ← ShapesLsp.Rectangle h w; call ShapesLsp.calculate_area shape).
Proof.
  rewrite !ocp_Rectangle_area, !lsp_Rectangle_area.
  split; apply py_mul_comm.
Qed.

End WithRuntime.

(** X5. For an [int] radius the refactored [Circle] squares exactly:
    its area is [pi] times the double nearest to [r * r]
    ([OverflowError] when that is out of range), whatever the
    platform's [pow] does, and the same for [-r] as for [r]. *)
Theorem Circle_int_radius (rt1 rt2 : Runtime) (r : Z) :
  (shape ← ShapesOcp.Circle (VInt r);
   call (ShapesOcp.Circle.calculate_area (rt := rt1)) shape)
  = (f ← float_of_int (r * r); Ok (VFloat (SFmul prec emax pi f)))
  ∧ (shape ← ShapesOcp.Circle (VInt r);
     call (ShapesOcp.Circle.calculate_area (rt := rt1)) shape)
    = (shape ← ShapesOcp.Circle (VInt r);
       call (ShapesOcp.Circle.calculate_area (rt := rt2)) shape)
  ∧ (shape ← ShapesOcp.Circle (VInt (- r));
     call (ShapesOcp.Circle.calculate_area (rt := rt1)) shape)
    = (shape ← ShapesOcp.Circle (VInt r);
       call (ShapesOcp.Circle.calculate_area (rt := rt1)) shape).
Proof.
  assert (∀ rt z,
    (shape ← ShapesOcp.Circle (VInt z);
     call (ShapesOcp.Circle.calculate_area (rt := rt)) shape)
    = (f ← float_of_int (z * z); Ok (VFloat (SFmul prec emax pi f)))) as Harea.
  { intros rt z. rewrite ocp_Circle_area. cbn [py_pow].
    change (0 <=? 2)%Z with true. cbv iota. cbn [mbind outcome_bind py_mul].
    by rewrite Z.pow_2_r. }
  rewrite !Harea. repeat split. by rewrite Z.mul_opp_opp.
Qed.

(** *** The shapes of [shapes_lsp.py] *)







(** X9. [Square] cannot stand in for [Rectangle]: the same client
    code, which sets the width to [a], then the height to [b], then
    asks for the area, gets [a * b] from a [Rectangle] and [b * b] from
    a [Square]. *)
Theorem Square_not_substitutable (w h side a b : Z) :
  (rectangle ← ShapesLspSubclass.Rectangle (VInt w) (VInt h);
   call (Clients.assignments object_setattr
           [("width", VInt a); ("height", VInt b)];;
         ShapesLspSubclass.Rectangle.calculate_area) rectangle)
  = Ok (VInt (a * b))
  ∧ (square ← ShapesLspSubclass.Square (VInt side);
     call (Clients.assignments ShapesLspSubclass.Square.__setattr__
             [("width", VInt a); ("height", VInt b)];;
           ShapesLspSubclass.Square.calculate_area) square)
    = Ok (VInt (b * b)).
Proof.
  split; vm_compute; reflexivity.
Qed.

Section WithRuntime.
Context {rt : Runtime}.

Lemma subclass_Square_area (side : value) :
  (square ← ShapesLspSubclass.Square side;
   call ShapesLspSubclass.Square.calculate_area square) = py_mul side side.
Proof.
  assert (ShapesLspSubclass.Square side
          = Ok (<["width" := side]> {[ "height" := side ]})) as ->
    by (vm_compute; reflexivity).
  unfold ShapesLspSubclass.Square.calculate_area,
    ShapesLspSubclass.Rectangle.calculate_area.
  run. by destruct (py_mul side side).
Qed.

Lemma lsp_Square_area (side : value) :
  (square ← ShapesLsp.Square side; call ShapesLsp.calculate_area square)
  = py_pow side (VInt 2).
Proof.
  unfold ShapesLsp.Square, ShapesLsp.instance, ShapesLsp.Square.__init__,
    ShapesLsp.calculate_area, ShapesLsp.Square.calculate_area.
  run. cbn [fmap outcome_fmap ShapesLsp.class_of ShapesLsp.vars]. run.
  by destruct (py_pow side (VInt 2)).
Qed.

(** X6. Making [Square] a sibling of [Rectangle] keeps its area for
    every side that is not a float: [Square(side)] of the second
    [shapes_lsp.py] ([side ** 2]) returns what [Square(side)] of the
    first ([width * height]) returns, or raises the same exception.
    (For a float side the first multiplies and the second calls the
    platform's [pow].) *)
Theorem Square_refactoring_keeps_area (side : value) :
  (∀ f, side ≠ VFloat f) →
  (square ← ShapesLspSubclass.Square side;
   call ShapesLspSubclass.Square.calculate_area square)
  = (square ← ShapesLsp.Square side; call ShapesLsp.calculate_area square).
Proof.
  intros Hfloat. rewrite subclass_Square_area, lsp_Square_area.
  destruct side as [|z|f|s]; cbn [py_mul py_pow]; try reflexivity.
  - change (0 <=? 2)%Z with true. cbv iota. by rewrite Z.pow_2_r.
  - by destruct (Hfloat f).
Qed.

(** *** [get_total_area] *)

Lemma observer_sum_calls {S} (method : M S value) :
  observer method → ∀ acc, observer (sum_calls method acc).
Proof.
  intros Hm acc xs. revert acc.
  induction xs as [|x xs IH]; intros acc; [done|].
  unfold after in *. cbn [sum_calls].
  specialize (Hm x). unfold after in Hm.
  destruct (method x) as [[v|e] x']; cbn [snd] in Hm; subst x'; [|done].
  destruct (py_add acc v) as [acc'|]; [|done].
  specialize (IH acc').
  destruct (sum_calls method acc' xs) as [r rest']. cbn [snd] in *.
  by subst.
Qed.

(** X10. [get_total_area] keeps no state and changes no shape: on
    every list of shapes, failing or not, the shapes are left as they
    were and a second call returns what the first returned; on the
    empty list it returns 0. *)
Theorem get_total_area_stateless :
  stateless ShapesLsp.get_total_area
  ∧ call ShapesLsp.get_total_area [] = Ok (VInt 0).
Proof.
  assert (observer ShapesLsp.get_total_area) as Hobs
    by (apply observer_sum_calls, ShapesFacts.observer_dispatch).
  repeat split; auto using observer_repeatable.
Qed.

Lemma py_add_int (acc v : value) (t : Z) :
  py_add acc v = Ok (VInt t) → ∃ k j, acc = VInt k ∧ v = VInt j ∧ t = (k + j)%Z.
Proof.
  destruct acc as [|k|f|s], v as [|j|g|u]; cbn [py_add]; try discriminate.
  - intros [= <-]. eauto.
  - destruct (float_of_int k); discriminate.
  - destruct (float_of_int j); discriminate.
Qed.

Lemma sum_calls_int {S} (method : M S value) (xs : list S) :
  ∀ (acc : value) (t : Z),
  call (sum_calls method acc) xs = Ok (VInt t) → ∃ k, acc = VInt k.
Proof.
  induction xs as [|x xs IH]; intros acc t; unfold call in *; cbn [sum_calls].
  - intros [= ->]. eauto.
  - destruct (method x) as [[v|e] x']; [|discriminate].
    destruct (py_add acc v) as [acc'|] eqn:Hadd; [|discriminate].
    specialize (IH acc' t).
    destruct (sum_calls method acc' xs) as [r rest']. cbn [fst] in *.
    intros Hr. destruct (IH Hr) as [k' ->].
    apply py_add_int in Hadd as (k & j & -> & _ & _). eauto.
Qed.

Lemma sum_calls_shift {S} (method : M S value) (xs : list S) :
  ∀ (k t d : Z),
  call (sum_calls method (VInt k)) xs = Ok (VInt t) →
  call (sum_calls method (VInt (k + d))) xs = Ok (VInt (t + d)).
Proof.
  induction xs as [|x xs IH]; intros k t d; unfold call in *; cbn [sum_calls].
  - intros [= ->]. done.
  - destruct (method x) as [[v|e] x']; [|discriminate].
    destruct (py_add (VInt k) v) as [acc'|] eqn:Hadd; [|discriminate].
    pose proof (sum_calls_int method xs acc' t) as Hint. unfold call in Hint.
    destruct (sum_calls method acc' xs) as [r rest'] eqn:Hrest. cbn [fst] in *.
    intros Hr. destruct (Hint Hr) as [k' ->].
    apply py_add_int in Hadd as (k0 & j & [= <-] & -> & ->).
    cbn [py_add]. specialize (IH (k + j)%Z t d). rewrite Hrest in IH.
    replace (k + d + j)%Z with (k + j + d)%Z by lia.
    destruct (sum_calls method (VInt (k + j + d)) xs). cbn [fst] in *. auto.
Qed.

Lemma sum_calls_app {S} (method : M S value) (xs ys : list S) :
  ∀ acc,
  call (sum_calls method acc) (xs ++ ys)%list
  = (acc' ← call (sum_calls method acc) xs; call (sum_calls method acc') ys).
Proof.
  induction xs as [|x xs IH]; intros acc; unfold call in *;
    cbn [app sum_calls]; [done|].
  destruct (method x) as [[v|e] x']; [|done].
  destruct (py_add acc v) as [acc'|]; [|done].
  specialize (IH acc').
  destruct (sum_calls method acc' (xs ++ ys)%list), (sum_calls method acc' xs).
  done.
Qed.

(** X11. Totals add up: when two lists of shapes have the [int]
    totals [a] and [b], their concatenation has the total [a + b]. *)
Theorem get_total_area_app (xs ys : list ShapesLsp.object) (a b : Z) :
  call ShapesLsp.get_total_area xs = Ok (VInt a) →
  call ShapesLsp.get_total_area ys = Ok (VInt b) →
  call ShapesLsp.get_total_area (xs ++ ys)%list = Ok (VInt (a + b)).
Proof.
  unfold ShapesLsp.get_total_area. intros Hxs Hys.
  rewrite sum_calls_app, Hxs. cbn [mbind outcome_bind].
  apply (sum_calls_shift _ ys 0 b a) in Hys.
  by rewrite Z.add_comm.
Qed.

End WithRuntime.

#[local] Existing Instance example_runtime.

Lemma Square_refactoring_keeps_area_witness :
  (∀ f, VInt 5 ≠ VFloat f)
  ∧ (square ← ShapesLspSubclass.Square (VInt 5);
     call ShapesLspSubclass.Square.calculate_area square)
    = (square ← ShapesLsp.Square (VInt 5);
       call ShapesLsp.calculate_area square).
Proof.
  assert (∀ f, VInt 5 ≠ VFloat f) as Hfloat by (intros f; discriminate).
  split; [exact Hfloat|].
  exact (Square_refactoring_keeps_area (VInt 5) Hfloat).
Defined.

Lemma get_total_area_app_witness :
  call ShapesLsp.get_total_area
    [ShapesLsp.Object ShapesLsp.cRectangle
       {[ "width" := VInt 10; "height" := VInt 5 ]}] = Ok (VInt 50)
  ∧ call ShapesLsp.get_total_area
      [ShapesLsp.Object ShapesLsp.cSquare {[ "side" := VInt 5 ]}]
    = Ok (VInt 25)
  ∧ call ShapesLsp.get_total_area
      ([ShapesLsp.Object ShapesLsp.cRectangle
          {[ "width" := VInt 10; "height" := VInt 5 ]}]
       ++ [ShapesLsp.Object ShapesLsp.cSquare {[ "side" := VInt 5 ]}])%list
    = Ok (VInt (50 + 25)).
Proof.
  assert (call ShapesLsp.get_total_area
            [ShapesLsp.Object ShapesLsp.cRectangle
               {[ "width" := VInt 10; "height" := VInt 5 ]}] = Ok (VInt 50))
    as Hxs by (vm_compute; reflexivity).
  assert (call ShapesLsp.get_total_area
            [ShapesLsp.Object ShapesLsp.cSquare {[ "side" := VInt 5 ]}]
          = Ok (VInt 25)) as Hys by (vm_compute; reflexivity).
  split; [exact Hxs|]. split; [exact Hys|].
  exact (get_total_area_app _ _ 50 25 Hxs Hys).
Defined.

End ShapesMore.

(** ** More on the printers *)

Module PrintersMore.
Section WithRuntime.
Context {rt : Runtime}.

(** X12. Segregating the interface changes no behaviour: on every
    document and every prior output, [NewPrinter] prints, faxes and
    scans exactly as [ModernPrinter] did, and the refactored
    [OldPrinter] prints exactly as the first one did. *)
Theorem segregated_printers_agree (document : value) (out : stdout) :
  PrintersIsp.print PrintersIsp.mkNewPrinter document out
  = PrintersIspWide.print PrintersIspWide.mkModernPrinter document out
  ∧ PrintersIsp.fax PrintersIsp.mkNewPrinter document out
    = PrintersIspWide.fax PrintersIspWide.mkModernPrinter document out
  ∧ PrintersIsp.scan PrintersIsp.mkNewPrinter document out
    = PrintersIspWide.scan PrintersIspWide.mkModernPrinter document out
  ∧ PrintersIsp.print PrintersIsp.mkOldPrinter document out
    = PrintersIspWide.print PrintersIspWide.mkOldPrinter document out.
Proof. repeat split. Qed.


End WithRuntime.
End PrintersMore.

(** ** More on the front end *)

Module AppDipMore.
Section WithRuntime.
Context {rt : Runtime}.


(** X15. Inverting the dependency changes no output: the first
    [FrontEnd] over [BackEnd] prints what the second [FrontEnd] over
    [Database] prints. *)
Theorem decoupling_keeps_output (out : stdout) :
  AppDipCoupled.display_data (AppDipCoupled.mkFrontEnd AppDipCoupled.mkBackEnd) out
  = AppDip.display_data (AppDip.mkFrontEnd AppDip.mkDatabase) out.
Proof. reflexivity. Qed.

End WithRuntime.
End AppDipMore.

(** ** More on the file manager *)

Module FileManagerMore.
Import FileManagerSrp FileManagerSrpFacts.
Local Open Scope Z_scope.





(** X18. On POSIX, writing to a path that names a directory raises
    [IsADirectoryError] and changes neither the manager nor the file
    system. *)
Theorem write_to_directory (self : FileManager) (data : text)
    (enc : option encoding) (fs : filesystem) :
  fs !! name (path self) = Some Directory →
  write Posix data enc (self, fs) = (Raise IsADirectoryError, (self, fs)).
Proof.
  intros Hdir. unfold write, mbind, M_bind, self_attr, in_world, write_text.
  by rewrite Hdir.
Qed.

Lemma write_to_directory_witness :
  ({[ "docs" := Directory ]} : filesystem) !! name (path (__init__ "docs"))
  = Some Directory
  ∧ write Posix [104; 105] None (__init__ "docs", {[ "docs" := Directory ]})
    = (Raise IsADirectoryError, (__init__ "docs", {[ "docs" := Directory ]})).
Proof.
  split; [apply lookup_singleton_eq|].
  apply (write_to_directory (__init__ "docs") [104; 105] None),
    lookup_singleton_eq.
Defined.



Lemma universal_newlines_no_CR (t : text) :
  (CR ∉ universal_newlines t) ∧ ∀ c, CR ∉ universal_newlines (c :: t).
Proof.
  induction t as [|c' t [IH1 IH2]].
  - split; [apply not_elem_of_nil|]. intros c. cbn [universal_newlines].
    destruct (Z.eqb_spec c CR).
    + rewrite not_elem_of_cons. split; [discriminate|apply not_elem_of_nil].
    + rewrite not_elem_of_cons. split; [done|apply not_elem_of_nil].
  - split; [apply IH2|]. intros c.
    change (universal_newlines (c :: c' :: t))
      with (if c =? CR
            then LF :: (if c' =? LF then universal_newlines t
                        else universal_newlines (c' :: t))
            else c :: universal_newlines (c' :: t)).
    destruct (Z.eqb_spec c CR).
    + rewrite not_elem_of_cons. split; [discriminate|].
      destruct (c' =? LF); auto.
    + rewrite not_elem_of_cons. split; [done|auto].
Qed.

(** X20. [read] never returns a carriage return: whatever bytes the
    file holds and whatever the encoding, a text that [read] returns
    holds no ["\r"]. *)
Theorem read_returns_no_carriage_return (self : FileManager)
    (enc : option encoding) (fs : filesystem) (t : text) :
  call (read enc) (self, fs) = Ok t → CR ∉ t.
Proof.
  unfold call, read, mbind, M_bind, self_attr, in_world, read_text.
  destruct (fs !! name (path self)) as [[bs|]|]; try discriminate.
  destruct (decode _ bs) as [decoded|]; cbn; [|discriminate].
  intros [= <-]. apply universal_newlines_no_CR.
Qed.

Lemma read_returns_no_carriage_return_witness :
  call (read None)
    (__init__ "notes.txt", {[ "notes.txt" := File [97; 13; 10; 98; 13] ]})
  = Ok [97; LF; 98; LF]
  ∧ CR ∉ [97; LF; 98; LF].
Proof.
  assert (call (read None)
            (__init__ "notes.txt",
             {[ "notes.txt" := File [97; 13; 10; 98; 13] ]})
          = Ok [97; LF; 98; LF]) as Hread by (vm_compute; reflexivity).
  split; [exact Hread|].
  exact (read_returns_no_carriage_return _ _ _ _ Hread).
Defined.







End FileManagerMore.
